(** * convert_to_word.py: the Markdown-to-Word conversion orchestrator

    A shallow embedding of [src/convert_to_word.py].  The script probes for
    pandoc, shells out to it once, and otherwise prints manual instructions.
    Everything it does is an effect on the outside world, so the embedding
    is a state-and-exception monad over

    - the files of the working directory (a finite map from relative paths
      to contents), which [os.path.exists] reads and child processes write;
    - a trace of the observable events of the run, in order: subprocess
      spawns, existence checks, and writes to the terminal, each write
      tagged with the process it comes from.

    What the operating system answers when a command line is spawned is an
    oracle of the environment ([spawn]); the theorems quantify over it.

    Modelling assumptions, all about the Python runtime and none about the
    script: [print] does not fail, [os.path.abspath] does not fail (it is
    called right after a relative path was found in the working directory),
    and no asynchronous signal arrives between two statements. *)

From stdpp Require Import base strings list gmap pretty.

Local Open Scope Z_scope.

(** ** Python exceptions *)

(** The exception classes that [subprocess.run] and the interpreter can
    raise in this script, with the builtin hierarchy. *)
Inductive exn_class :=
  | BaseException
  | Exception
  | KeyboardInterrupt
  | OSError
  | FileNotFoundError
  | PermissionError
  | SubprocessError
  | CalledProcessError
  | ValueError
  | UnicodeError
  | UnicodeDecodeError.

#[export] Instance exn_class_eq_dec : EqDecision exn_class.
Proof. solve_decision. Defined.

(** The direct base class ([cls.__base__]). *)
Definition base_class (c : exn_class) : option exn_class :=
  match c with
  | BaseException => None
  | Exception => Some BaseException
  | KeyboardInterrupt => Some BaseException
  | OSError => Some Exception
  | FileNotFoundError => Some OSError
  | PermissionError => Some OSError
  | SubprocessError => Some Exception
  | CalledProcessError => Some SubprocessError
  | ValueError => Some Exception
  | UnicodeError => Some ValueError
  | UnicodeDecodeError => Some UnicodeError
  end.

(** The chain of base classes, the class itself first ([cls.__mro__]); the
    hierarchy above is four levels deep. *)
Fixpoint mro_upto (depth : nat) (c : exn_class) : list exn_class :=
  c :: match depth, base_class c with
       | S d, Some p => mro_upto d p
       | _, _ => []
       end.

Definition mro (c : exn_class) : list exn_class := mro_upto 4 c.

Definition issubclass (c d : exn_class) : bool := bool_decide (d ∈ mro c).

(** An exception object: its class and what [str(e)] gives. *)
Record exn := mkExn { exn_type : exn_class; exn_str : string }.

(** [isinstance(e, (c1, ..., cn))], the test of an [except] clause. *)
Definition isinstance (e : exn) (classes : list exn_class) : bool :=
  existsb (issubclass (exn_type e)) classes.

(** ** The world and the trace *)

Inductive stream := Stdout | Stderr.

(** Who writes to the terminal: the script itself, or a child process that
    inherited the terminal (spawned without capture). *)
Inductive origin := Script | Child (argv : list string).

(** [EvSpawn argv] is a call of [subprocess.run] on [argv] (the attempt,
    whether or not a child gets to run); [EvExists path] a call of
    [os.path.exists]; [EvWrite] some text reaching the terminal. *)
Inductive event :=
  | EvSpawn (argv : list string)
  | EvExists (path : string)
  | EvWrite (who : origin) (fd : stream) (text : string).

#[export] Instance stream_eq_dec : EqDecision stream.
Proof. solve_decision. Defined.
#[export] Instance origin_eq_dec : EqDecision origin.
Proof. solve_decision. Defined.
#[export] Instance event_eq_dec : EqDecision event.
Proof. solve_decision. Defined.

Record State := mkState {
  files : gmap string string;
  trace : list event
}.

(** What spawning a command line gives: the spawn itself fails with an
    exception (the executable is not found, is not executable, its output
    cannot be decoded, ...), or the child runs to its end. *)
Inductive outcome :=
  | SpawnError (e : exn)
  | Exited (rc : Z) (out err : string).

(** The environment of a run. [spawn argv fs] is the outcome of running
    [argv] on the files [fs], and the files the child leaves behind. *)
Record Env := mkEnv {
  spawn : list string → gmap string string → outcome * gmap string string;
  abspath : string → string
}.

(** ** The monad: state, and a result that is a value or a raised exception *)

Inductive result (A : Type) :=
  | Return (a : A)
  | Raise (e : exn).
Arguments Return {A} a.
Arguments Raise {A} e.

Definition M (A : Type) : Type := State → result A * State.

#[export] Instance M_ret : MRet M := λ A a s, (Return a, s).

#[export] Instance M_bind : MBind M := λ A B k m s,
  match m s with
  | (Return a, s') => k a s'
  | (Raise e, s') => (Raise e, s')
  end.

Definition emit (ev : event) : M unit :=
  λ s, (Return tt, mkState (files s) (trace s ++ [ev])).

(** [try: body  except classes as e: handler e]. An exception of another
    class keeps propagating. *)
Definition try_except {A} (body : M A) (classes : list exn_class)
    (handler : exn → M A) : M A :=
  λ s, match body s with
       | (Raise e, s') =>
           if isinstance e classes then handler e s' else (Raise e, s')
       | r => r
       end.

(** ** Builtins and library calls *)

Definition nl : string := String (Ascii.ascii_of_nat 10) "".

(** [s * n] on strings. *)
Fixpoint str_mul (s : string) (n : nat) : string :=
  match n with
  | O => ""
  | S n' => s +:+ str_mul s n'
  end.

(** [print(line)]: the line and a newline go to the script's stdout. *)
Definition print (line : string) : M unit :=
  emit (EvWrite Script Stdout (line +:+ nl)).

(** [os.path.exists(path)], for a path relative to the working directory. *)
Definition os_path_exists (path : string) : M bool :=
  λ s, (Return (bool_decide (is_Some (files s !! path))),
        mkState (files s) (trace s ++ [EvExists path])).

Definition os_path_abspath (env : Env) (path : string) : M string :=
  mret (abspath env path).

(** [repr] of a list of strings without quotes in them. *)
Definition repr_list (l : list string) : string :=
  "[" +:+ String.concat ", " (map (λ a, "'" +:+ a +:+ "'") l) +:+ "]".

(** The name of a signal number in [signal.Signals], as on Linux. *)
Definition signal_name (n : Z) : option string :=
  match n with
  | 1 => Some "SIGHUP" | 2 => Some "SIGINT" | 3 => Some "SIGQUIT"
  | 4 => Some "SIGILL" | 5 => Some "SIGTRAP" | 6 => Some "SIGABRT"
  | 7 => Some "SIGBUS" | 8 => Some "SIGFPE" | 9 => Some "SIGKILL"
  | 10 => Some "SIGUSR1" | 11 => Some "SIGSEGV" | 12 => Some "SIGUSR2"
  | 13 => Some "SIGPIPE" | 14 => Some "SIGALRM" | 15 => Some "SIGTERM"
  | 16 => Some "SIGSTKFLT" | 17 => Some "SIGCHLD" | 18 => Some "SIGCONT"
  | 19 => Some "SIGSTOP" | 20 => Some "SIGTSTP" | 21 => Some "SIGTTIN"
  | 22 => Some "SIGTTOU" | 23 => Some "SIGURG" | 24 => Some "SIGXCPU"
  | 25 => Some "SIGXFSZ" | 26 => Some "SIGVTALRM" | 27 => Some "SIGPROF"
  | 28 => Some "SIGWINCH" | 29 => Some "SIGIO" | 30 => Some "SIGPWR"
  | 31 => Some "SIGSYS" | 34 => Some "SIGRTMIN" | 64 => Some "SIGRTMAX"
  | _ => None
  end.

(** [str] of a [CalledProcessError]: a child killed by a signal has a
    negative return code, and the message names the signal when
    [signal.Signals] knows it. *)
Definition CalledProcessError_str (argv : list string) (rc : Z) : string :=
  if bool_decide (rc < 0)
  then match signal_name (- rc) with
       | Some name =>
           "Command '" +:+ repr_list argv +:+ "' died with <Signals."
             +:+ name +:+ ": " +:+ pretty (- rc) +:+ ">."
       | None =>
           "Command '" +:+ repr_list argv +:+ "' died with unknown signal "
             +:+ pretty (- rc) +:+ "."
       end
  else "Command '" +:+ repr_list argv +:+ "' returned non-zero exit status "
         +:+ pretty rc +:+ ".".

(** The object [subprocess.run] returns; [stdout] and [stderr] are [None]
    unless the output was captured. *)
Record CompletedProcess := mkCompleted {
  args : list string;
  returncode : Z;
  stdout : option string;
  stderr : option string
}.

(** An f-string field [{x}] for an optional string. *)
Definition fmt (x : option string) : string := default "None" x.

(** [subprocess.run(argv, capture_output=.., check=..)].  Without capture
    the child inherits the terminal and its output shows there; with
    capture it only ends up in the returned object.  With [check], a
    non-zero exit status raises [CalledProcessError]. *)
Definition subprocess_run (env : Env) (argv : list string)
    (capture_output check : bool) : M CompletedProcess :=
  λ s,
    let '(o, fs') := spawn env argv (files s) in
    let t1 := trace s ++ [EvSpawn argv] in
    match o with
    | SpawnError e => (Raise e, mkState fs' t1)
    | Exited rc out err =>
        let t2 :=
          if capture_output then t1
          else t1 ++ [EvWrite (Child argv) Stdout out;
                      EvWrite (Child argv) Stderr err] in
        let captured (x : string) :=
          if capture_output then Some x else None in
        if check && negb (bool_decide (rc = 0))
        then (Raise (mkExn CalledProcessError (CalledProcessError_str argv rc)),
              mkState fs' t2)
        else (Return (mkCompleted argv rc (captured out) (captured err)),
              mkState fs' t2)
    end.

(** ** The script *)

Definition input_file : string := "Game_Architecture_Documentation.md".
Definition output_file : string := "Game_Architecture_Documentation.docx".

Definition probe_cmd : list string := ["pandoc"; "--version"].

(** Check if pandoc is installed. *)
Definition check_pandoc (env : Env) : M bool :=
  try_except
    (subprocess_run env probe_cmd true true ;;
     mret true)
    [CalledProcessError; FileNotFoundError]
    (λ _, mret false).

(** The command line of the conversion (the local [cmd]). *)
Definition cmd : list string :=
  [ "pandoc";
    input_file;
    "-o"; output_file;
    "--from"; "markdown";
    "--to"; "docx";
    "--standalone";
    "--toc";
    "--number-sections" ].

(** Convert Markdown to Word using pandoc.  The call passes [text=True]:
    the captured output is decoded to strings, and output that cannot be
    decoded is a [UnicodeDecodeError] of the spawn. *)
Definition convert_with_pandoc (env : Env) : M bool :=
  found ← os_path_exists input_file;
  if negb found then
    print ("Error: " +:+ input_file +:+ " not found!") ;;
    mret false
  else
    try_except
      (res ← subprocess_run env cmd true false;
       if bool_decide (returncode res = 0) then
         print ("✅ Successfully converted to " +:+ output_file) ;;
         location ← os_path_abspath env output_file;
         print ("📄 File location: " +:+ location) ;;
         mret true
       else
         print ("❌ Conversion failed: " +:+ fmt (stderr res)) ;;
         mret false)
      [Exception]
      (λ e,
         print ("❌ Error during conversion: " +:+ exn_str e) ;;
         mret false).

(** What [manual_conversion_instructions] prints, line by line. *)
Definition manual_lines : list string :=
  [ nl +:+ str_mul "=" 60;
    "MANUAL CONVERSION INSTRUCTIONS";
    str_mul "=" 60;
    nl +:+ "If pandoc is not available, you can manually convert the documentation:";
    nl +:+ "1. 📋 Copy the content from 'Game_Architecture_Documentation.md'";
    "2. 📝 Open Microsoft Word";
    "3. 📄 Create a new document";
    "4. 📋 Paste the content";
    "5. 🎨 Apply formatting:";
    "   - Use Heading 1 for main sections";
    "   - Use Heading 2 for subsections";
    "   - Use Heading 3 for sub-subsections";
    "   - Format code blocks with monospace font";
    "   - Add page breaks between major sections";
    "6. 📊 For the architecture diagram:";
    "   - Copy the ASCII diagram";
    "   - Use a monospace font (like Courier New)";
    "   - Or recreate it using Word's drawing tools";
    "7. 💾 Save as .docx format";
    nl +:+ str_mul "=" 60 ].

(** A run of [print] calls, one per line. *)
Fixpoint print_all (lines : list string) : M unit :=
  match lines with
  | [] => mret tt
  | l :: rest => print l ;; print_all rest
  end.

(** The twenty [print] calls of the function, in order. *)
Definition manual_conversion_instructions : M unit := print_all manual_lines.

(** Main function. *)
Definition main (env : Env) : M unit :=
  print "🎮 Game Architecture Documentation Converter" ;;
  print (str_mul "=" 50) ;;
  available ← check_pandoc env;
  (if available : bool then
     print "✅ Pandoc found! Attempting automatic conversion..." ;;
     converted ← convert_with_pandoc env;
     if converted : bool then
       print (nl +:+ "🎉 Conversion completed successfully!") ;;
       print "📖 You can now open the Word document and format it as needed."
     else
       print (nl +:+ "⚠️  Automatic conversion failed. Using manual instructions...") ;;
       manual_conversion_instructions
   else
     print "❌ Pandoc not found. Using manual conversion instructions..." ;;
     manual_conversion_instructions) ;;
  print (nl +:+ "📚 Additional Tips:") ;;
  print "- The Markdown file contains all the content you need" ;;
  print "- The ASCII diagram can be enhanced with Word's drawing tools" ;;
  print "- Consider adding screenshots of the game for visual appeal" ;;
  print "- Use Word's built-in table of contents feature".

(** Running the file as a script: [main()] under the [__main__] guard,
    then the interpreter's exit status.  The script never calls
    [sys.exit]; an uncaught error ends the process with status 1 and an
    uncaught [KeyboardInterrupt] with 130 (the traceback the interpreter
    prints is not part of the model). *)
Definition exit_status (r : result unit) : Z :=
  match r with
  | Return _ => 0
  | Raise e => if bool_decide (exn_type e = KeyboardInterrupt) then 130 else 1
  end.

Definition run (env : Env) (fs : gmap string string) : result unit * State :=
  main env (mkState fs []).

Definition script (env : Env) (fs : gmap string string) : Z * State :=
  let '(r, s) := run env fs in (exit_status r, s).

(** ** Observations on a trace *)

(** The event of a [print]. *)
Definition line (text : string) : event := EvWrite Script Stdout (text +:+ nl).

(** The command lines spawned, in order. *)
Definition spawned (t : list event) : list (list string) :=
  omap (λ ev, match ev with EvSpawn argv => Some argv | _ => None end) t.

Definition is_write (ev : event) : bool :=
  match ev with EvWrite _ _ _ => true | _ => false end.

(** Everything written to the terminal, by whom and where, in order. *)
Definition terminal (t : list event) : list event := List.filter is_write t.

(** What the script does to the outside world besides printing: spawns and
    file-system queries, in order. *)
Definition actions (t : list event) : list event :=
  List.filter (λ ev, negb (is_write ev)) t.

(** The lines [ls] were printed one after the other. *)
Definition emitted (ls : list string) (t : list event) : Prop :=
  ∃ before after, t = before ++ map line ls ++ after.

(** The messages of [main], by the branch that prints them. *)
Definition banner_lines : list string :=
  [ "🎮 Game Architecture Documentation Converter";
    str_mul "=" 50 ].

Definition found_line : string :=
  "✅ Pandoc found! Attempting automatic conversion...".

Definition completed_lines : list string :=
  [ nl +:+ "🎉 Conversion completed successfully!";
    "📖 You can now open the Word document and format it as needed." ].

Definition failed_line : string :=
  nl +:+ "⚠️  Automatic conversion failed. Using manual instructions...".

Definition not_found_line : string :=
  "❌ Pandoc not found. Using manual conversion instructions...".

Definition tips_lines : list string :=
  [ nl +:+ "📚 Additional Tips:";
    "- The Markdown file contains all the content you need";
    "- The ASCII diagram can be enhanced with Word's drawing tools";
    "- Consider adding screenshots of the game for visual appeal";
    "- Use Word's built-in table of contents feature" ].

(** The messages of [convert_with_pandoc]. *)
Definition missing_line : string := "Error: " +:+ input_file +:+ " not found!".

Definition converted_lines (env : Env) : list string :=
  [ "✅ Successfully converted to " +:+ output_file;
    "📄 File location: " +:+ abspath env output_file ].

Definition conversion_failed_line (err : string) : string :=
  "❌ Conversion failed: " +:+ err.

Definition conversion_error_line (e : exn) : string :=
  "❌ Error during conversion: " +:+ exn_str e.

(** [s] extended with printed lines. *)
Definition printing (s : State) (ls : list string) : State :=
  mkState (files s) (trace s ++ map line ls).

(** A write that comes from a child process. *)
Definition from_child (ev : event) : bool :=
  match ev with EvWrite (Child _) _ _ => true | _ => false end.

(** What [check_pandoc] answers on the files [fs] (the spec's
    [probe_tool()]). *)
Definition probe_tool (env : Env) (fs : gmap string string) : result bool :=
  (check_pandoc env (mkState fs [])).1.

(** The events of a run of the script on the files [fs]. *)
Definition events (env : Env) (fs : gmap string string) : list event :=
  trace (run env fs).2.

(** ** The outside world, as the script meets it *)

(** What the version probe meets, and the files it leaves for the rest of
    the run. *)
Definition probe_outcome (env : Env) (fs : gmap string string) : outcome :=
  (spawn env probe_cmd fs).1.

Definition files_after_probe (env : Env) (fs : gmap string string)
    : gmap string string :=
  (spawn env probe_cmd fs).2.

(** What the conversion command meets if it is spawned after the probe. *)
Definition conversion_outcome (env : Env) (fs : gmap string string) : outcome :=
  (spawn env cmd (files_after_probe env fs)).1.

(** The external tool is missing: spawning it raises [FileNotFoundError]. *)
Definition tool_missing (o : outcome) : Prop :=
  match o with
  | SpawnError e => exn_type e = FileNotFoundError
  | Exited _ _ _ => False
  end.

(** The external tool ran and reported success. *)
Definition tool_succeeded (o : outcome) : Prop :=
  match o with
  | Exited rc _ _ => rc = 0
  | SpawnError _ => False
  end.

(** The external tool ran and reported a failure. *)
Definition tool_failed (o : outcome) : Prop :=
  match o with
  | Exited rc _ _ => rc ≠ 0
  | SpawnError _ => False
  end.

(** The spawn raised an ordinary error (anything but an interrupt). *)
Definition execution_error (o : outcome) : Prop :=
  match o with
  | SpawnError e => issubclass (exn_type e) Exception = true
  | Exited _ _ _ => False
  end.

(** The normal operating conditions: at each of the two spawns the tool
    is missing, runs to an exit status (success or failure), or the spawn
    raises an execution error.  The input file may be there or not. *)
Definition normal_conditions (env : Env) (fs : gmap string string) : Prop :=
  (tool_missing (probe_outcome env fs)
   ∨ tool_succeeded (probe_outcome env fs)
   ∨ tool_failed (probe_outcome env fs)
   ∨ execution_error (probe_outcome env fs))
  ∧ (tool_missing (conversion_outcome env fs)
     ∨ tool_succeeded (conversion_outcome env fs)
     ∨ tool_failed (conversion_outcome env fs)
     ∨ execution_error (conversion_outcome env fs)).

(** The conversion succeeded: the tool answered the probe, the input file
    is there and the conversion exited with status 0. *)
Definition conversion_succeeded (env : Env) (fs : gmap string string) : Prop :=
  tool_succeeded (probe_outcome env fs)
  ∧ is_Some (files_after_probe env fs !! input_file)
  ∧ tool_succeeded (conversion_outcome env fs).

(** The conversion failed altogether, in one of the ways the script
    meets without an exception escaping: the tool is missing or fails the
    probe, or it answers the probe and then the input file is missing,
    the conversion exits with a non-zero status, or the conversion spawn
    raises an execution error. *)
Definition conversion_failed (env : Env) (fs : gmap string string) : Prop :=
  tool_missing (probe_outcome env fs)
  ∨ tool_failed (probe_outcome env fs)
  ∨ (tool_succeeded (probe_outcome env fs)
     ∧ (files_after_probe env fs !! input_file = None
        ∨ tool_failed (conversion_outcome env fs)
        ∨ execution_error (conversion_outcome env fs))).

(** ** Sample environments *)

Definition no_such_file : exn :=
  mkExn FileNotFoundError "[Errno 2] No such file or directory: 'pandoc'".

Definition permission_denied : exn :=
  mkExn PermissionError "[Errno 13] Permission denied: 'pandoc'".

Definition sample_abspath (p : string) : string := "/home/user/game/" +:+ p.

(** No pandoc on the PATH. *)
Definition env_missing : Env :=
  mkEnv (λ _ fs, (SpawnError no_such_file, fs)) sample_abspath.

(** A pandoc on the PATH that cannot be executed. *)
Definition env_denied : Env :=
  mkEnv (λ _ fs, (SpawnError permission_denied, fs)) sample_abspath.

(** A toy converter: the document is the input's text under a header. *)
Definition sample_render (src : option string) : string :=
  "docx:" +:+ default "" src.

(** A working pandoc: the version query prints a version, the conversion
    writes the output file. *)
Definition env_ok : Env :=
  mkEnv (λ argv fs,
           if bool_decide (argv = probe_cmd)
           then (Exited 0 "pandoc 3.1.9" "", fs)
           else (Exited 0 "" "",
                 <[output_file := sample_render (fs !! input_file)]> fs))
        sample_abspath.

(** A pandoc that answers the version query and rejects the conversion. *)
Definition env_rejecting : Env :=
  mkEnv (λ argv fs,
           if bool_decide (argv = probe_cmd)
           then (Exited 0 "pandoc 3.1.9" "", fs)
           else (Exited 6 "" "pandoc: unrecognized option", fs))
        sample_abspath.

(** A pandoc that is installed but broken: every call exits with 1. *)
Definition env_broken : Env :=
  mkEnv (λ _ fs, (Exited 1 "" "pandoc: cannot load shared library", fs))
        sample_abspath.

Definition fs_empty : gmap string string := ∅.

Definition fs_with_input : gmap string string :=
  {[ input_file := "# Game Architecture" ]}.

(** ** Further observations and sample environments *)

(** The line that confirms a conversion, and the title of the manual
    instructions. *)
Definition confirmation_line : string :=
  nl +:+ "🎉 Conversion completed successfully!".

Definition manual_title : string := "MANUAL CONVERSION INSTRUCTIONS".

(** The environment [env] with the text the script never reads blanked
    in every outcome that ran to an exit status: the captured stdout of
    the child, and its captured stderr when it exits with status 0.  A
    spawn that raised is left as it is; that includes the
    [UnicodeDecodeError] of output that [text=True] cannot decode, which
    depends on the bytes the child wrote and changes the run. *)
Definition blank_unread_text (env : Env) : Env :=
  mkEnv (λ argv fs,
           let '(o, fs') := spawn env argv fs in
           (match o with
            | Exited rc out err =>
                Exited rc "" (if bool_decide (rc = 0) then "" else err)
            | SpawnError e => SpawnError e
            end, fs'))
        (abspath env).

(** The external tool is not part of the repository.  What is assumed of
    it is stated over its command line, read as pandoc reads it:
    [pandoc INPUT -o OUTPUT OPTIONS...] converts [INPUT] into [OUTPUT];
    any other command line (the version query is one) converts nothing. *)
Record conversion_call := mkCall {
  call_input : string;
  call_output : string;
  call_options : list string
}.

Definition parse_conversion (argv : list string) : option conversion_call :=
  match argv with
  | exe :: inp :: flag :: out :: options =>
      if bool_decide (exe = "pandoc" ∧ flag = "-o")
      then Some (mkCall inp out options) else None
  | _ => None
  end.

(** The contract of a converter: a conversion that exits with status 0
    has written the file named after [-o], and only it, with a document
    that depends on the options and on the input file only; a command
    line that is no conversion touches no file. *)
Definition converter (render : list string → option string → string)
    (env : Env) : Prop :=
  (∀ argv call fs out err fs',
     parse_conversion argv = Some call →
     spawn env argv fs = (Exited 0 out err, fs') →
     fs' = <[call_output call :=
               render (call_options call) (fs !! call_input call)]> fs)
  ∧ (∀ argv fs, parse_conversion argv = None → (spawn env argv fs).2 = fs).

(** The options the script passes after the output path. *)
Definition cmd_options : list string :=
  [ "--from"; "markdown"; "--to"; "docx";
    "--standalone"; "--toc"; "--number-sections" ].

(** A toy pandoc that obeys its command line: a conversion writes the
    input's text under a header into the output, and fails when the
    input is missing. *)
Definition toy_render (options : list string) (src : option string) : string :=
  "docx:" +:+ default "" src.

Definition env_pandoc : Env :=
  mkEnv (λ argv fs,
           match parse_conversion argv with
           | Some call =>
               match fs !! call_input call with
               | Some src =>
                   (Exited 0 "" "",
                    <[call_output call := toy_render (call_options call) (Some src)]> fs)
               | None =>
                   (Exited 1 "" "pandoc: openBinaryFile: does not exist", fs)
               end
           | None => (Exited 0 "pandoc 3.1.9" "", fs)
           end)
        sample_abspath.

(** The spawned commands leave the files alone. *)
Definition spawn_keeps_files (env : Env) : Prop :=
  ∀ argv fs, (spawn env argv fs).2 = fs.

(** A pandoc that answers the version query and is gone when the
    conversion is spawned. *)
Definition env_vanishing : Env :=
  mkEnv (λ argv fs,
           if bool_decide (argv = probe_cmd)
           then (Exited 0 "pandoc 3.1.9" "", fs)
           else (SpawnError no_such_file, fs))
        sample_abspath.

(** A pandoc whose conversion writes bytes that are not valid UTF-8:
    with [text=True] the spawn raises while decoding them. *)
Definition cannot_decode : exn :=
  mkExn UnicodeDecodeError
    "'utf-8' codec can't decode byte 0xff in position 0: invalid start byte".

Definition env_undecodable : Env :=
  mkEnv (λ argv fs,
           if bool_decide (argv = probe_cmd)
           then (Exited 0 "pandoc 3.1.9" "", fs)
           else (SpawnError cannot_decode,
                 <[output_file := sample_render (fs !! input_file)]> fs))
        sample_abspath.

(** The user interrupts the conversion with Ctrl-C. *)
Definition interrupted : exn := mkExn KeyboardInterrupt "".

Definition env_interrupted : Env :=
  mkEnv (λ argv fs,
           if bool_decide (argv = probe_cmd)
           then (Exited 0 "pandoc 3.1.9" "", fs)
           else (SpawnError interrupted, fs))
        sample_abspath.

(** A pandoc that warns on both streams and succeeds. *)
Definition env_warning : Env :=
  mkEnv (λ argv fs,
           if bool_decide (argv = probe_cmd)
           then (Exited 0 "pandoc 3.1.9" "", fs)
           else (Exited 0 "done" "[WARNING] Could not fetch resource logo.png",
                 <[output_file := sample_render (fs !! input_file)]> fs))
        sample_abspath.

(** An event that is not a terminal write, or is a write of the script
    to its stdout. *)
Definition no_other_write (ev : event) : bool :=
  match ev with
  | EvWrite Script Stdout _ => true
  | EvWrite _ _ _ => false
  | _ => true
  end.

(** * Properties *)

(** ** How each function runs *)

Ltac run_monad :=
  unfold try_except, subprocess_run, os_path_exists, os_path_abspath,
    print, emit, mbind, M_bind, mret, M_ret; simpl.

Lemma print_run (text : string) (s : State) :
  print text s = (Return tt, printing s [text]).
Proof. reflexivity. Qed.

Lemma printing_app (s : State) (l1 l2 : list string) :
  printing (printing s l1) l2 = printing s (l1 ++ l2).
Proof. unfold printing; simpl. by rewrite map_app, app_assoc. Qed.

Lemma printing_nil (s : State) : printing s [] = s.
Proof. destruct s. unfold printing; simpl. by rewrite app_nil_r. Qed.

Lemma print_all_run (ls : list string) (s : State) :
  print_all ls s = (Return tt, printing s ls).
Proof.
  revert s. induction ls as [|l ls IH]; intros s.
  - by rewrite printing_nil.
  - change (print_all (l :: ls) s) with (print_all ls (printing s [l])).
    by rewrite IH, printing_app.
Qed.

Lemma manual_run (s : State) :
  manual_conversion_instructions s = (Return tt, printing s manual_lines).
Proof. apply print_all_run. Qed.

(** [check_pandoc] on each outcome of the probe. *)
Lemma check_pandoc_run (env : Env) (s : State) :
  check_pandoc env s =
    let s' := mkState (files_after_probe env (files s))
                      (trace s ++ [EvSpawn probe_cmd]) in
    match probe_outcome env (files s) with
    | Exited rc _ _ => (Return (bool_decide (rc = 0)), s')
    | SpawnError e =>
        if isinstance e [CalledProcessError; FileNotFoundError]
        then (Return false, s') else (Raise e, s')
    end.
Proof.
  unfold check_pandoc, probe_outcome, files_after_probe. run_monad.
  destruct (spawn env probe_cmd (files s)) as [[e|rc out err] fs']; simpl.
  - reflexivity.
  - by case_bool_decide.
Qed.

Lemma bind_run {A B} (m : M A) (k : A → M B) (s : State) :
  (m ≫= k) s =
    match m s with
    | (Return a, s') => k a s'
    | (Raise e, s') => (Raise e, s')
    end.
Proof. reflexivity. Qed.

Ltac run_prints :=
  repeat (progress (rewrite ?bind_run, ?print_run, ?printing_app;
                    cbv beta iota)).

Lemma ret_run {A} (a : A) (s : State) : (mret a : M A) s = (Return a, s).
Proof. reflexivity. Qed.

(** [convert_with_pandoc] on each answer of the existence check and each
    outcome of the conversion command. *)
Lemma convert_run (env : Env) (s : State) :
  convert_with_pandoc env s =
    let s0 := mkState (files s) (trace s ++ [EvExists input_file]) in
    if bool_decide (is_Some (files s !! input_file)) then
      let s' := mkState (spawn env cmd (files s)).2
                        (trace s0 ++ [EvSpawn cmd]) in
      match (spawn env cmd (files s)).1 with
      | Exited rc out err =>
          if bool_decide (rc = 0)
          then (Return true, printing s' (converted_lines env))
          else (Return false, printing s' [conversion_failed_line err])
      | SpawnError e =>
          if isinstance e [Exception]
          then (Return false, printing s' [conversion_error_line e])
          else (Raise e, s')
      end
    else (Return false, printing s0 [missing_line]).
Proof.
  unfold convert_with_pandoc. rewrite bind_run.
  unfold os_path_exists at 1. cbv zeta.
  destruct (bool_decide (is_Some (files s !! input_file))); cbn [negb].
  - unfold try_except. rewrite bind_run. unfold subprocess_run. cbn [files trace].
    destruct (spawn env cmd (files s)) as [[e|rc out err] fs']; cbn [fst snd andb].
    + destruct (isinstance e [Exception]); [|reflexivity].
      by rewrite bind_run, print_run, ret_run.
    + cbn [returncode stderr fmt default].
      destruct (bool_decide (rc = 0)).
      * rewrite bind_run, print_run, bind_run. unfold os_path_abspath.
        rewrite ret_run, bind_run, print_run, ret_run, printing_app.
        reflexivity.
      * by rewrite bind_run, print_run, ret_run.
  - by rewrite bind_run, print_run, ret_run.
Qed.

(** [main] as the decision tree over the results of its two callees. *)
Lemma main_run (env : Env) (s : State) :
  main env s =
    match check_pandoc env (printing s banner_lines) with
    | (Return true, s1) =>
        match convert_with_pandoc env (printing s1 [found_line]) with
        | (Return true, s2) =>
            (Return tt, printing s2 (completed_lines ++ tips_lines))
        | (Return false, s2) =>
            (Return tt, printing s2 (failed_line :: manual_lines ++ tips_lines))
        | (Raise e, s2) => (Raise e, s2)
        end
    | (Return false, s1) =>
        (Return tt, printing s1 (not_found_line :: manual_lines ++ tips_lines))
    | (Raise e, s1) => (Raise e, s1)
    end.
Proof.
  unfold main.
  rewrite bind_run, print_run, bind_run, print_run, printing_app, bind_run.
  change ([_] ++ [_]) with banner_lines.
  destruct (check_pandoc env (printing s banner_lines)) as [[[|]|e] s1];
    [| |reflexivity].
  - rewrite bind_run, bind_run, print_run, bind_run. fold found_line.
    destruct (convert_with_pandoc env (printing s1 [found_line]))
      as [[[|]|e] s2]; [| |reflexivity].
    + by run_prints.
    + rewrite bind_run, print_run, manual_run. by run_prints.
  - rewrite bind_run, bind_run, print_run, manual_run. by run_prints.
Qed.

(** ** Traces under printing *)

Lemma spawned_app (t1 t2 : list event) :
  spawned (t1 ++ t2) = spawned t1 ++ spawned t2.
Proof. apply omap_app. Qed.

Lemma spawned_lines (ls : list string) : spawned (map line ls) = [].
Proof. induction ls as [|l ls IH]; [done|]. exact IH. Qed.

Lemma spawned_printing (s : State) (ls : list string) :
  spawned (trace (printing s ls)) = spawned (trace s).
Proof.
  unfold printing; simpl. by rewrite spawned_app, spawned_lines, app_nil_r.
Qed.

Lemma emitted_printing (s : State) (pre ls post : list string) :
  emitted ls (trace (printing s (pre ++ ls ++ post))).
Proof.
  exists (trace s ++ map line pre), (map line post).
  unfold printing; simpl. by rewrite !map_app, !app_assoc.
Qed.

Lemma emitted_manual_after (s : State) (l : string) :
  emitted manual_lines (trace (printing s (l :: manual_lines ++ tips_lines))).
Proof. apply (emitted_printing s [l] manual_lines tips_lines). Qed.

(** The answer of [check_pandoc] depends on the files only. *)
Lemma check_pandoc_answer (env : Env) (s : State) :
  (check_pandoc env s).1 = probe_tool env (files s).
Proof.
  unfold probe_tool. rewrite !check_pandoc_run. cbn [files].
  destruct (probe_outcome env (files s)) as [e|rc out err]; [|done].
  by destruct (isinstance e _).
Qed.

Lemma check_pandoc_state (env : Env) (s : State) :
  (check_pandoc env s).2 =
    mkState (files_after_probe env (files s)) (trace s ++ [EvSpawn probe_cmd]).
Proof.
  rewrite check_pandoc_run.
  destruct (probe_outcome env (files s)) as [e|rc out err]; [|done].
  by destruct (isinstance e _).
Qed.

(** ** The probe *)

(** C3: [check_pandoc] answers true exactly when the external tool was
    executed and exited with status 0; it answers false when the tool is
    missing (the spawn raises [FileNotFoundError]) and when the tool exits
    with a non-zero status. *)
Theorem check_pandoc_true_iff_tool_succeeded (env : Env) (s : State) :
  let o := probe_outcome env (files s) in
  ((check_pandoc env s).1 = Return true ↔ ∃ out err, o = Exited 0 out err)
  ∧ (tool_missing o → (check_pandoc env s).1 = Return false)
  ∧ (tool_failed o → (check_pandoc env s).1 = Return false).
Proof.
  cbv zeta. rewrite check_pandoc_run.
  destruct (probe_outcome env (files s)) as [[c msg]|rc out err];
    cbn [tool_missing tool_failed exn_type fst].
  - split; [|split].
    + split; [|by intros (? & ? & ?)].
      by destruct (isinstance _ _).
    + by intros ->.
    + done.
  - split; [|split].
    + split.
      * intros [= Hrc]. apply bool_decide_eq_true in Hrc as ->. eauto.
      * intros (? & ? & [= -> _ _]). done.
    + done.
    + intros Hrc. by rewrite bool_decide_eq_false_2.
Qed.

Lemma check_pandoc_true_iff_tool_succeeded_witness :
  let s := mkState fs_with_input [] in
  (check_pandoc env_ok s).1 = Return true
  ∧ (tool_missing (probe_outcome env_missing (files s))
     ∧ (check_pandoc env_missing s).1 = Return false)
  ∧ (tool_failed (probe_outcome env_broken (files s))
     ∧ (check_pandoc env_broken s).1 = Return false).
Proof.
  intros s.
  assert (Hmissing : tool_missing (probe_outcome env_missing (files s)))
    by reflexivity.
  assert (Hfailed : tool_failed (probe_outcome env_broken (files s)))
    by discriminate.
  destruct (check_pandoc_true_iff_tool_succeeded env_ok s) as [Hiff _].
  destruct (check_pandoc_true_iff_tool_succeeded env_missing s) as (_ & Hm & _).
  destruct (check_pandoc_true_iff_tool_succeeded env_broken s) as (_ & _ & Hf).
  split; [|split].
  - apply Hiff. by exists "pandoc 3.1.9", "".
  - exact (conj Hmissing (Hm Hmissing)).
  - exact (conj Hfailed (Hf Hfailed)).
Defined.

(** C9: the probe shows nothing on the terminal: whatever the child of
    [check_pandoc] writes is captured, the terminal (stdout and stderr)
    is as it was before the call, and in a whole run of the script no
    terminal write comes from a child process. *)
Theorem check_pandoc_shows_nothing (env : Env) (s : State) (fs : gmap string string) :
  terminal (trace (check_pandoc env s).2) = terminal (trace s)
  ∧ List.filter from_child (events env fs) = [].
Proof.
  split.
  - rewrite check_pandoc_state. cbn [trace]. unfold terminal.
    rewrite List.filter_app. cbn. by rewrite app_nil_r.
  - unfold events, run. rewrite main_run.
    pose proof (check_pandoc_state env (printing (mkState fs []) banner_lines)) as Hs.
    destruct (check_pandoc env _) as [[[|]|e] s1]; cbn [snd] in Hs; subst s1.
    + rewrite convert_run. cbv zeta. cbn [files trace printing].
      destruct (bool_decide (is_Some _)).
      * destruct (spawn env cmd _) as [[e|rc out err] fs']; cbn [fst snd].
        -- by destruct (isinstance e _).
        -- by destruct (bool_decide (rc = 0)).
      * reflexivity.
    + reflexivity.
    + reflexivity.
Qed.

(** Without capture the child's output would show: the model tells the two
    modes of [subprocess.run] apart. *)
Lemma uncaptured_child_shows (env : Env) (argv : list string) (s : State)
    (rc : Z) (out err : string) :
  (spawn env argv (files s)).1 = Exited rc out err →
  terminal (trace (subprocess_run env argv false false s).2) =
    terminal (trace s) ++ [EvWrite (Child argv) Stdout out;
                           EvWrite (Child argv) Stderr err].
Proof.
  intros Ho. unfold subprocess_run.
  destruct (spawn env argv (files s)) as [o fs']. cbn [fst] in Ho. subst o.
  cbn [andb snd trace]. unfold terminal.
  rewrite !List.filter_app. cbn. by rewrite app_nil_r.
Qed.

(** ** The conversion *)

(** C4: with the input file in place, [convert_with_pandoc] returns true
    exactly when the tool ran and exited with status 0.  On status 0 it
    prints the success message and the line with the absolute path of the
    output file; on another status it returns false and prints the failure
    message that ends with the tool's captured stderr text. *)
Theorem convert_succeeds_iff_exit_zero (env : Env) (s : State) :
  is_Some (files s !! input_file) →
  let o := (spawn env cmd (files s)).1 in
  let r := convert_with_pandoc env s in
  (r.1 = Return true ↔ ∃ out err, o = Exited 0 out err)
  ∧ (∀ rc out err, o = Exited rc out err →
       (r.1 = Return true ↔ rc = 0)
       ∧ (rc = 0 →
            trace r.2 =
              trace s ++
                [ EvExists input_file; EvSpawn cmd;
                  line ("✅ Successfully converted to " +:+ output_file);
                  line ("📄 File location: " +:+ abspath env output_file) ])
       ∧ (rc ≠ 0 →
            r.1 = Return false
            ∧ trace r.2 =
                trace s ++
                  [ EvExists input_file; EvSpawn cmd;
                    line ("❌ Conversion failed: " +:+ err) ])).
Proof.
  intros Hin. cbv zeta. rewrite convert_run. cbv zeta.
  rewrite (bool_decide_eq_true_2 _ Hin).
  destruct (spawn env cmd (files s)) as [[e|rc out err] fs']; cbn [fst snd].
  - split.
    + split; [|by intros (? & ? & ?)]. by destruct (isinstance e _).
    + intros ? ? ? [=].
  - split.
    + case_bool_decide as Hrc; cbn [fst].
      * subst rc. split; eauto.
      * split; [done|]. by intros (? & ? & [= -> _ _]).
    + intros rc' out' err' [= <- <- <-]. split; [|split].
      * case_bool_decide; cbn [fst]; split; congruence.
      * intros ->. rewrite bool_decide_eq_true_2 by done.
        unfold printing, converted_lines. cbn [snd trace map].
        by rewrite <- !app_assoc.
      * intros Hrc. rewrite (bool_decide_eq_false_2 _ Hrc).
        unfold printing, conversion_failed_line. cbn [fst snd trace map].
        by rewrite <- !app_assoc.
Qed.

(** ** The whole script *)

Ltac same_trace :=
  unfold printing; cbn [files trace];
  rewrite ?map_app, <- ?app_assoc; reflexivity.

(** A run of the script, by what the probe answers, whether the input
    file is there, and what the conversion command meets. *)
Lemma run_eq (env : Env) (fs : gmap string string) :
  run env fs =
    let s1 := mkState (files_after_probe env fs)
                      (map line banner_lines ++ [EvSpawn probe_cmd]) in
    match probe_tool env fs with
    | Raise e => (Raise e, s1)
    | Return false =>
        (Return tt, printing s1 (not_found_line :: manual_lines ++ tips_lines))
    | Return true =>
        let s2 := mkState (files s1)
                          (trace s1 ++ [line found_line; EvExists input_file]) in
        if bool_decide (is_Some (files_after_probe env fs !! input_file)) then
          let s3 := mkState (spawn env cmd (files_after_probe env fs)).2
                            (trace s2 ++ [EvSpawn cmd]) in
          match conversion_outcome env fs with
          | Exited rc out err =>
              if bool_decide (rc = 0)
              then (Return tt,
                    printing s3 (converted_lines env ++ completed_lines
                                 ++ tips_lines))
              else (Return tt,
                    printing s3 (conversion_failed_line err :: failed_line
                                 :: manual_lines ++ tips_lines))
          | SpawnError e =>
              if isinstance e [Exception]
              then (Return tt,
                    printing s3 (conversion_error_line e :: failed_line
                                 :: manual_lines ++ tips_lines))
              else (Raise e, s3)
          end
        else (Return tt,
              printing s2 (missing_line :: failed_line
                           :: manual_lines ++ tips_lines))
    end.
Proof.
  unfold run. rewrite main_run.
  pose proof (check_pandoc_answer env (printing (mkState fs []) banner_lines)) as Ha.
  pose proof (check_pandoc_state env (printing (mkState fs []) banner_lines)) as Hs.
  destruct (check_pandoc env _) as [r s1]. cbn [fst snd files printing trace] in Ha, Hs.
  rewrite <- Ha. subst s1. cbv zeta. rewrite app_nil_l.
  destruct r as [[|]|e]; [|reflexivity..].
  rewrite convert_run. cbv zeta. cbn [files trace printing].
  unfold conversion_outcome.
  destruct (bool_decide (is_Some _)).
  - destruct (spawn env cmd _) as [[e|rc out err] fs']; cbn [fst snd].
    + destruct (isinstance e _); same_trace.
    + destruct (bool_decide (rc = 0)); same_trace.
  - same_trace.
Qed.

(** C2: the control flow of [main] is one decision tree.  When
    [check_pandoc] answers true, [convert_with_pandoc] is attempted (after
    the found message): if it returns true the success message is printed,
    if it returns false the failure message and then the manual
    instructions are.  When [check_pandoc] answers false, the not-found
    message and the manual instructions are printed and the probe is the
    only command spawned.  Each branch ends with the tips. *)
Theorem main_decision_tree (env : Env) (s : State) :
  let s0 := printing s banner_lines in
  (∀ s1, check_pandoc env s0 = (Return true, s1) →
     (∀ s2, convert_with_pandoc env (printing s1 [found_line]) = (Return true, s2) →
        main env s = (Return tt, printing s2 (completed_lines ++ tips_lines)))
     ∧ (∀ s2, convert_with_pandoc env (printing s1 [found_line]) = (Return false, s2) →
          main env s =
            (Return tt, printing s2 (failed_line :: manual_lines ++ tips_lines))))
  ∧ (∀ s1, check_pandoc env s0 = (Return false, s1) →
       main env s =
         (Return tt, printing s1 (not_found_line :: manual_lines ++ tips_lines))
       ∧ spawned (trace (main env s).2) = spawned (trace s) ++ [probe_cmd]).
Proof.
  cbv zeta. split.
  - intros s1 Hp. split; intros s2 Hc; by rewrite main_run, Hp, Hc.
  - intros s1 Hp. rewrite main_run, Hp. split; [done|].
    cbn [snd]. rewrite spawned_printing.
    pose proof (check_pandoc_state env (printing s banner_lines)) as Hs.
    rewrite Hp in Hs. cbn [snd] in Hs. subst s1. cbn [trace].
    by rewrite spawned_app, spawned_printing.
Qed.

Lemma main_decision_tree_witness :
  let s := mkState fs_with_input [] in
  let s1 := (check_pandoc env_rejecting (printing s banner_lines)).2 in
  let s2 := (convert_with_pandoc env_rejecting (printing s1 [found_line])).2 in
  let s1' := (check_pandoc env_missing (printing s banner_lines)).2 in
  main env_rejecting s =
    (Return tt, printing s2 (failed_line :: manual_lines ++ tips_lines))
  ∧ main env_missing s =
      (Return tt, printing s1' (not_found_line :: manual_lines ++ tips_lines))
  ∧ spawned (trace (main env_missing s).2) = [probe_cmd].
Proof.
  intros s s1 s2 s1'. split.
  - destruct (main_decision_tree env_rejecting s) as [Hfound _].
    destruct (Hfound s1 eq_refl) as [_ Hfailed].
    exact (Hfailed s2 eq_refl).
  - destruct (main_decision_tree env_missing s) as [_ Hnot_found].
    exact (Hnot_found s1' eq_refl).
Defined.

Lemma probe_tool_eq (env : Env) (fs : gmap string string) :
  probe_tool env fs =
    match probe_outcome env fs with
    | Exited rc _ _ => Return (bool_decide (rc = 0))
    | SpawnError e =>
        if isinstance e [CalledProcessError; FileNotFoundError]
        then Return false else Raise e
    end.
Proof.
  unfold probe_tool. rewrite check_pandoc_run. cbn [files].
  destruct (probe_outcome env fs) as [e|rc out err]; [|done].
  by destruct (isinstance e _).
Qed.

Lemma probe_tool_succeeded (env : Env) (fs : gmap string string) :
  tool_succeeded (probe_outcome env fs) → probe_tool env fs = Return true.
Proof.
  rewrite probe_tool_eq. destruct (probe_outcome env fs) as [e|rc out err];
    cbn [tool_succeeded]; [done|]. intros ->. done.
Qed.

Lemma probe_tool_missing_or_failed (env : Env) (fs : gmap string string) :
  tool_missing (probe_outcome env fs) ∨ tool_failed (probe_outcome env fs) →
  probe_tool env fs = Return false.
Proof.
  rewrite probe_tool_eq.
  destruct (probe_outcome env fs) as [[c msg]|rc out err];
    cbn [tool_missing tool_failed exn_type].
  - intros [->|[]]. done.
  - intros [[]|Hrc]. by rewrite bool_decide_eq_false_2.
Qed.

(** Every run starts with the banner and then spawns the probe. *)
Lemma events_start (env : Env) (fs : gmap string string) :
  ∃ rest, events env fs = map line banner_lines ++ EvSpawn probe_cmd :: rest.
Proof.
  unfold events. rewrite run_eq. cbv zeta.
  destruct (probe_tool env fs) as [[|]|e]; cbn [snd].
  - destruct (bool_decide (is_Some _)).
    + destruct (conversion_outcome env fs) as [e|rc out err];
        [destruct (isinstance e _)|destruct (bool_decide (rc = 0))];
        cbn [snd printing trace files]; rewrite <- ?app_assoc; eauto.
    + cbn [snd printing trace files]. rewrite <- ?app_assoc. eauto.
  - cbn [printing trace files]. rewrite <- ?app_assoc. eauto.
  - cbn [trace]. eauto.
Qed.

Lemma not_elem_of_by_decide {A} `{EqDecision A} (x : A) (l : list A) :
  bool_decide (x ∈ l) = false → x ∉ l.
Proof. apply bool_decide_eq_false. Qed.

(** C1, as the code has it: when the input file is not there, the
    conversion command is never spawned.  If [check_pandoc] answered true,
    the script reports the missing file and prints the manual
    instructions; if it answered false, the script prints the manual
    instructions and never looks for the file, so reports nothing about
    it. *)
Theorem missing_input_never_converts (env : Env) (fs : gmap string string) :
  files_after_probe env fs !! input_file = None →
  (cmd ∉ spawned (events env fs))
  ∧ (probe_tool env fs = Return true →
       line missing_line ∈ events env fs
       ∧ emitted manual_lines (events env fs))
  ∧ (probe_tool env fs = Return false →
       (line missing_line ∉ events env fs)
       ∧ (EvExists input_file ∉ events env fs)
       ∧ emitted manual_lines (events env fs)).
Proof.
  intros Hnone. unfold events. rewrite run_eq. cbv zeta.
  rewrite Hnone. rewrite bool_decide_eq_false_2 by (by intros [? ?]).
  destruct (probe_tool env fs) as [[|]|e]; cbn [snd].
  - split; [|split; [|done]].
    + rewrite spawned_printing. by apply not_elem_of_by_decide.
    + intros _. split.
      * unfold printing; cbn [trace map]. set_solver.
      * apply (emitted_printing _ [missing_line; failed_line]
                 manual_lines tips_lines).
  - split; [|split; [done|]].
    + rewrite spawned_printing. by apply not_elem_of_by_decide.
    + intros _. split; [|split].
      * by apply not_elem_of_by_decide.
      * by apply not_elem_of_by_decide.
      * apply emitted_manual_after.
  - split; [|done]. by apply not_elem_of_by_decide.
Qed.

(** C1 as stated fails: with no pandoc and no input file, the script never
    looks for the file and nothing it prints reports it missing. *)
Lemma missing_input_unreported_without_tool :
  fs_empty !! input_file = None
  ∧ files_after_probe env_missing fs_empty !! input_file = None
  ∧ (line missing_line ∉ events env_missing fs_empty).
Proof.
  split; [done|]. split; [done|].
  apply not_elem_of_by_decide. vm_compute. reflexivity.
Qed.

Lemma missing_input_never_converts_witness :
  files_after_probe env_ok fs_empty !! input_file = None
  ∧ probe_tool env_ok fs_empty = Return true
  ∧ (cmd ∉ spawned (events env_ok fs_empty))
  ∧ line missing_line ∈ events env_ok fs_empty
  ∧ emitted manual_lines (events env_ok fs_empty).
Proof.
  assert (Hnone : files_after_probe env_ok fs_empty !! input_file = None)
    by reflexivity.
  assert (Htrue : probe_tool env_ok fs_empty = Return true) by reflexivity.
  destruct (missing_input_never_converts env_ok fs_empty Hnone)
    as (Hcmd & Hfound & _).
  destruct (Hfound Htrue) as [Hline Hmanual].
  exact (conj Hnone (conj Htrue (conj Hcmd (conj Hline Hmanual)))).
Defined.

(** C5: when the probe finds the tool and the input file is there, the
    script spawns exactly two commands: the version probe, and then the
    conversion once, with the fixed argument list (markdown to docx,
    standalone, table of contents, numbered sections). *)
Theorem one_conversion_call (env : Env) (fs : gmap string string) :
  tool_succeeded (probe_outcome env fs) →
  is_Some (files_after_probe env fs !! input_file) →
  spawned (events env fs) =
    [ [ "pandoc"; "--version" ];
      [ "pandoc"; "Game_Architecture_Documentation.md";
        "-o"; "Game_Architecture_Documentation.docx";
        "--from"; "markdown"; "--to"; "docx";
        "--standalone"; "--toc"; "--number-sections" ] ].
Proof.
  intros Htool Hin. unfold events. rewrite run_eq. cbv zeta.
  rewrite (probe_tool_succeeded _ _ Htool), (bool_decide_eq_true_2 _ Hin).
  destruct (conversion_outcome env fs) as [e|rc out err];
    [destruct (isinstance e _)|destruct (bool_decide (rc = 0))];
    cbn [snd]; rewrite ?spawned_printing; reflexivity.
Qed.

Lemma one_conversion_call_witness :
  tool_succeeded (probe_outcome env_ok fs_with_input)
  ∧ is_Some (files_after_probe env_ok fs_with_input !! input_file)
  ∧ spawned (events env_ok fs_with_input) = [probe_cmd; cmd].
Proof.
  assert (Htool : tool_succeeded (probe_outcome env_ok fs_with_input))
    by reflexivity.
  assert (Hin : is_Some (files_after_probe env_ok fs_with_input !! input_file))
    by (by eexists).
  exact (conj Htool (conj Hin (one_conversion_call env_ok fs_with_input Htool Hin))).
Defined.

(** C6: not every error under normal operating conditions is recovered.
    With a pandoc that is on the PATH but may not be executed, the probe
    spawn raises [PermissionError], an execution error; [check_pandoc]
    catches only [CalledProcessError] and [FileNotFoundError], so the
    exception escapes [main]: the script stops after the probe, prints
    neither a confirmation nor the manual instructions, and exits with
    status 1.  The same error at the conversion spawn is caught. *)
Theorem probe_execution_error_is_fatal :
  normal_conditions env_denied fs_with_input
  ∧ execution_error (probe_outcome env_denied fs_with_input)
  ∧ run env_denied fs_with_input =
      (Raise permission_denied,
       mkState fs_with_input (map line banner_lines ++ [EvSpawn probe_cmd]))
  ∧ (script env_denied fs_with_input).1 = 1
  ∧ (line confirmation_line ∉ events env_denied fs_with_input)
  ∧ (line manual_title ∉ events env_denied fs_with_input)
  ∧ convert_with_pandoc env_denied (mkState fs_with_input []) =
      (Return false,
       mkState fs_with_input
         [ EvExists input_file; EvSpawn cmd;
           line "❌ Error during conversion: [Errno 13] Permission denied: 'pandoc'" ]).
Proof.
  split; [split; right; right; right; reflexivity|].
  split; [reflexivity|]. split; [reflexivity|]. split; [reflexivity|].
  split; [|split].
  - apply not_elem_of_by_decide. vm_compute. reflexivity.
  - apply not_elem_of_by_decide. vm_compute. reflexivity.
  - reflexivity.
Qed.

(** C10: in every run the version probe is the first thing the script
    does to the outside world, so it comes before any existence check of
    the input file; and when the tool answers the probe but the input
    file is missing, the probe is the one command that was spawned. *)
Theorem probe_precedes_existence_check (env : Env) (fs : gmap string string) :
  (∃ rest, actions (events env fs) = EvSpawn probe_cmd :: rest)
  ∧ (∀ pre post, events env fs = pre ++ EvExists input_file :: post →
       EvSpawn probe_cmd ∈ pre)
  ∧ (tool_succeeded (probe_outcome env fs) →
     files_after_probe env fs !! input_file = None →
     spawned (events env fs) = [probe_cmd]).
Proof.
  split; [|split].
  - destruct (events_start env fs) as [rest ->].
    exists (actions rest). reflexivity.
  - destruct (events_start env fs) as [rest ->].
    intros pre post Heq. cbn [map banner_lines app] in Heq.
    destruct pre as [|x1 [|x2 [|x3 pre]]]; cbn [app] in Heq;
      [discriminate..|].
    injection Heq as _ _ <- _. set_solver.
  - intros Htool Hnone. unfold events. rewrite run_eq. cbv zeta.
    rewrite (probe_tool_succeeded _ _ Htool), Hnone.
    rewrite bool_decide_eq_false_2 by (by intros [? ?]).
    cbn [snd]. by rewrite spawned_printing.
Qed.

Lemma probe_precedes_existence_check_witness :
  (tool_succeeded (probe_outcome env_ok fs_empty)
   ∧ files_after_probe env_ok fs_empty !! input_file = None
   ∧ spawned (events env_ok fs_empty) = [probe_cmd])
  ∧ EvSpawn probe_cmd
      ∈ map line banner_lines ++ [EvSpawn probe_cmd; line found_line].
Proof.
  assert (Htool : tool_succeeded (probe_outcome env_ok fs_empty)) by reflexivity.
  assert (Hnone : files_after_probe env_ok fs_empty !! input_file = None)
    by reflexivity.
  destruct (probe_precedes_existence_check env_ok fs_empty)
    as (_ & _ & Hone).
  destruct (probe_precedes_existence_check env_ok fs_with_input)
    as (_ & Hbefore & _).
  split.
  - exact (conj Htool (conj Hnone (Hone Htool Hnone))).
  - exact (Hbefore
             (map line banner_lines ++ [EvSpawn probe_cmd; line found_line])
             ([EvSpawn cmd] ++ map line (converted_lines env_ok)
              ++ map line completed_lines ++ map line tips_lines)
             eq_refl).
Defined.

(** ** Running the conversion twice *)

Lemma input_is_not_output : input_file ≠ output_file.
Proof. discriminate. Qed.

(** What a successful [convert_with_pandoc] says about the world. *)
Lemma convert_true_inv (env : Env) (s s1 : State) :
  convert_with_pandoc env s = (Return true, s1) →
  is_Some (files s !! input_file)
  ∧ ∃ out err, spawn env cmd (files s) = (Exited 0 out err, files s1).
Proof.
  rewrite convert_run. cbv zeta. case_bool_decide as Hin; [|discriminate].
  destruct (spawn env cmd (files s)) as [[e|rc out err] fs']; cbn [fst snd].
  - by destruct (isinstance e _).
  - case_bool_decide as Hrc; [|discriminate].
    intros [= <-]. subst rc. split; [done|]. by exists out, err.
Qed.

(** The script itself writes no file: apart from what the spawned commands
    do, the files stay as they are. *)
Lemma convert_without_input_keeps_files (env : Env) (s : State) :
  files s !! input_file = None →
  files (convert_with_pandoc env s).2 = files s.
Proof.
  intros Hnone. rewrite convert_run. cbv zeta.
  rewrite Hnone. by rewrite bool_decide_eq_false_2 by (by intros [? ?]).
Qed.

Lemma parse_cmd :
  parse_conversion cmd = Some (mkCall input_file output_file cmd_options).
Proof. reflexivity. Qed.

Lemma parse_probe_cmd : parse_conversion probe_cmd = None.
Proof. reflexivity. Qed.

Section idempotence.
(** The external tool is a black box: any converter, in the sense of
    [converter], with any rendering. *)
Variable env : Env.
Variable render : list string → option string → string.
Hypothesis tool_is_converter : converter render env.

(** What a successful [convert_with_pandoc] leaves: the command line the
    script passes names the input and the output file, so the converter
    has written the output file from the input file. *)
Lemma convert_true_files (s s1 : State) :
  convert_with_pandoc env s = (Return true, s1) →
  files s1 =
    <[output_file := render cmd_options (files s !! input_file)]> (files s).
Proof.
  intros Hc. apply convert_true_inv in Hc as (_ & out & err & Hsp).
  destruct tool_is_converter as [Hconv _].
  exact (Hconv cmd _ _ _ _ _ parse_cmd Hsp).
Qed.


(** A successful run of the whole script leaves the rendered document
    behind and confirms it. *)
Lemma run_success_files (fs : gmap string string) :
  tool_succeeded (probe_outcome env fs) →
  is_Some (fs !! input_file) →
  tool_succeeded (conversion_outcome env fs) →
  files (run env fs).2 = <[output_file := render cmd_options (fs !! input_file)]> fs
  ∧ emitted completed_lines (events env fs).
Proof.
  destruct tool_is_converter as [Hconv Hquery].
  assert (Hprobe : files_after_probe env fs = fs)
    by exact (Hquery probe_cmd fs parse_probe_cmd).
  intros Hp Hin Hc. unfold events. rewrite run_eq. cbv zeta.
  rewrite (probe_tool_succeeded _ _ Hp).
  unfold conversion_outcome in *. rewrite Hprobe in *.
  rewrite (bool_decide_eq_true_2 _ Hin).
  destruct (spawn env cmd fs) as [[e|rc out err] fs'] eqn:Hsp;
    cbn [fst snd tool_succeeded] in *; [done|]. subst rc.
  rewrite bool_decide_eq_true_2 by done. cbn [snd printing files].
  split.
  - exact (Hconv cmd _ _ _ _ _ parse_cmd Hsp).
  - apply (emitted_printing _ (converted_lines env) completed_lines tips_lines).
Qed.

(** Idempotence for two runs of the whole script. *)
Lemma script_twice_same_files (fs : gmap string string) :
  let fs1 := files (run env fs).2 in
  let fs2 := files (run env fs1).2 in
  is_Some (fs !! input_file) →
  tool_succeeded (probe_outcome env fs) →
  tool_succeeded (conversion_outcome env fs) →
  tool_succeeded (probe_outcome env fs1) →
  tool_succeeded (conversion_outcome env fs1) →
  fs2 = fs1 ∧ fs1 = <[output_file := render cmd_options (fs !! input_file)]> fs.
Proof.
  intros fs1 fs2 Hin Hp Hc Hp1 Hc1.
  destruct (run_success_files fs Hp Hin Hc) as [H1 _].
  fold fs1 in H1.
  assert (Hsame : fs1 !! input_file = fs !! input_file).
  { rewrite H1. apply lookup_insert_ne. apply not_eq_sym, input_is_not_output. }
  assert (Hin1 : is_Some (fs1 !! input_file)) by (by rewrite Hsame).
  destruct (run_success_files fs1 Hp1 Hin1 Hc1) as [H2 _].
  fold fs2 in H2. split; [|exact H1].
  rewrite H2, Hsame, H1. apply insert_insert_eq.
Qed.
End idempotence.

(** The toy pandoc is a converter. *)
Lemma env_pandoc_is_converter : converter toy_render env_pandoc.
Proof.
  split.
  - intros argv call fs out err fs' Hparse. unfold env_pandoc. cbn [spawn].
    rewrite Hparse.
    destruct (fs !! call_input call) as [src|]; [|discriminate].
    by intros [= _ _ <-].
  - intros argv fs Hparse. unfold env_pandoc. cbn [spawn].
    by rewrite Hparse.
Defined.

(** The contract follows the command line: with the input file named as
    the output, the toy pandoc converts its own output again, and two
    conversions in a row leave different files. *)
Lemma converter_reads_the_command_line :
  spawn env_pandoc ["pandoc"; input_file; "-o"; input_file] fs_with_input =
    (Exited 0 "" "", {[ input_file := "docx:# Game Architecture" ]})
  ∧ spawn env_pandoc ["pandoc"; input_file; "-o"; input_file]
      {[ input_file := "docx:# Game Architecture" ]} =
      (Exited 0 "" "", {[ input_file := "docx:docx:# Game Architecture" ]}).
Proof. split; reflexivity. Qed.


Lemma convert_succeeds_iff_exit_zero_witness :
  let s := mkState fs_with_input [] in
  is_Some (files s !! input_file)
  ∧ (convert_with_pandoc env_rejecting s).1 = Return false
  ∧ trace (convert_with_pandoc env_rejecting s).2 =
      [ EvExists input_file; EvSpawn cmd;
        line "❌ Conversion failed: pandoc: unrecognized option" ].
Proof.
  intros s.
  assert (Hin : is_Some (files s !! input_file)) by (by eexists).
  assert (Hrc : (6 : Z) ≠ 0) by discriminate.
  destruct (convert_succeeds_iff_exit_zero env_rejecting s Hin) as [_ Hexit].
  destruct (Hexit 6 "" "pandoc: unrecognized option" eq_refl) as (_ & _ & Hfail).
  exact (conj Hin (Hfail Hrc)).
Defined.

(** ** The scenarios of the spec, run *)

(** Scenario 1: input file present, tool present, tool exits 0. *)
Example scenario_1_success :
  run env_ok fs_with_input =
    (Return tt,
     mkState (<[output_file := "docx:# Game Architecture"]> fs_with_input)
       (map line banner_lines
        ++ [EvSpawn probe_cmd; line found_line;
            EvExists input_file; EvSpawn cmd;
            line "✅ Successfully converted to Game_Architecture_Documentation.docx";
            line "📄 File location: /home/user/game/Game_Architecture_Documentation.docx"]
        ++ map line completed_lines ++ map line tips_lines)).
Proof. reflexivity. Qed.

(** Scenario 2: input file present, tool present, tool exits non-zero. *)
Example scenario_2_tool_fails :
  run env_rejecting fs_with_input =
    (Return tt,
     mkState fs_with_input
       (map line banner_lines
        ++ [EvSpawn probe_cmd; line found_line;
            EvExists input_file; EvSpawn cmd;
            line "❌ Conversion failed: pandoc: unrecognized option";
            line failed_line]
        ++ map line manual_lines ++ map line tips_lines)).
Proof. reflexivity. Qed.

(** Scenario 3: input file present, tool absent. *)
Example scenario_3_no_tool :
  run env_missing fs_with_input =
    (Return tt,
     mkState fs_with_input
       (map line banner_lines
        ++ [EvSpawn probe_cmd; line not_found_line]
        ++ map line manual_lines ++ map line tips_lines)).
Proof. reflexivity. Qed.

(** Scenario 4: input file absent, tool present. *)
Example scenario_4_no_input :
  run env_ok fs_empty =
    (Return tt,
     mkState fs_empty
       (map line banner_lines
        ++ [EvSpawn probe_cmd; line found_line;
            EvExists input_file;
            line "Error: Game_Architecture_Documentation.md not found!";
            line failed_line]
        ++ map line manual_lines ++ map line tips_lines)).
Proof. reflexivity. Qed.

(** The tool vanishing between the probe and the conversion is an
    execution error of the conversion, caught and reported. *)
Example conversion_spawn_error_is_reported :
  let env := mkEnv (λ argv fs,
                      if bool_decide (argv = probe_cmd)
                      then (Exited 0 "pandoc 3.1.9" "", fs)
                      else (SpawnError no_such_file, fs))
                   sample_abspath in
  run env fs_with_input =
    (Return tt,
     mkState fs_with_input
       (map line banner_lines
        ++ [EvSpawn probe_cmd; line found_line;
            EvExists input_file; EvSpawn cmd;
            line "❌ Error during conversion: [Errno 2] No such file or directory: 'pandoc'";
            line failed_line]
        ++ map line manual_lines ++ map line tips_lines)).
Proof. reflexivity. Qed.

(** * Further properties of the script *)

(** ** Exceptions that escape *)

Lemma isinstance_Exception (e : exn) :
  isinstance e [Exception] = issubclass (exn_type e) Exception.
Proof. unfold isinstance. cbn [existsb]. apply orb_false_r. Qed.

(** X1: [check_pandoc] raises exactly the exceptions of the probe spawn
    that are neither a [CalledProcessError] nor a [FileNotFoundError]; a
    [PermissionError] (pandoc found but not executable) is one of them. *)
Theorem check_pandoc_raises_iff (env : Env) (s : State) (e : exn) :
  ((check_pandoc env s).1 = Raise e ↔
     probe_outcome env (files s) = SpawnError e
     ∧ isinstance e [CalledProcessError; FileNotFoundError] = false)
  ∧ (probe_outcome env (files s) = SpawnError e →
     exn_type e = PermissionError →
     (check_pandoc env s).1 = Raise e).
Proof.
  rewrite check_pandoc_run. cbv zeta.
  destruct (probe_outcome env (files s)) as [e'|rc out err].
  - split.
    + destruct (isinstance e' _) eqn:Hi; cbn [fst]; split.
      * discriminate.
      * intros [[= ->] Hf]. congruence.
      * intros [= ->]. done.
      * intros [[= ->] _]. done.
    + intros [= ->] Hc. destruct e as [c msg]. cbn in Hc. subst c. reflexivity.
  - split; [split|]; [discriminate| intros [[=] _] | discriminate].
Qed.

Lemma check_pandoc_raises_iff_witness :
  (check_pandoc env_denied (mkState fs_with_input [])).1 = Raise permission_denied.
Proof.
  destruct (check_pandoc_raises_iff env_denied (mkState fs_with_input [])
              permission_denied) as [_ Hperm].
  exact (Hperm eq_refl eq_refl).
Defined.

(** X2: [convert_with_pandoc] raises only when the input file is there
    and the conversion spawn raises something that is not an [Exception]
    (an interrupt); every other outcome ends in a returned boolean. *)
Theorem convert_raises_iff (env : Env) (s : State) (e : exn) :
  (convert_with_pandoc env s).1 = Raise e ↔
    is_Some (files s !! input_file)
    ∧ (spawn env cmd (files s)).1 = SpawnError e
    ∧ issubclass (exn_type e) Exception = false.
Proof.
  rewrite convert_run. cbv zeta. case_bool_decide as Hin.
  - destruct (spawn env cmd (files s)) as [[e'|rc out err] fs']; cbn [fst snd].
    + rewrite isinstance_Exception.
      destruct (issubclass (exn_type e') Exception) eqn:Hi; cbn [fst]; split.
      * discriminate.
      * intros (_ & [= ->] & Hf). congruence.
      * intros [= ->]. done.
      * intros (_ & [= ->] & _). done.
    + split; [by case_bool_decide | intros (_ & [=] & _)].
  - cbn [fst]. split; [discriminate | intros [? _]; done].
Qed.

Lemma convert_raises_iff_witness :
  (convert_with_pandoc env_interrupted (mkState fs_with_input [])).1
    = Raise interrupted.
Proof.
  apply (convert_raises_iff env_interrupted (mkState fs_with_input []) interrupted).
  split; [by eexists|]. split; reflexivity.
Defined.

(** X3: when the conversion spawn raises an ordinary error (the tool has
    vanished, its output cannot be decoded, ...), [convert_with_pandoc]
    returns false and prints the error message with [str(e)]. *)
Theorem convert_reports_spawn_error (env : Env) (s : State) (e : exn) :
  is_Some (files s !! input_file) →
  (spawn env cmd (files s)).1 = SpawnError e →
  issubclass (exn_type e) Exception = true →
  convert_with_pandoc env s =
    (Return false,
     mkState (spawn env cmd (files s)).2
       (trace s ++ [ EvExists input_file; EvSpawn cmd;
                     line ("❌ Error during conversion: " +:+ exn_str e) ])).
Proof.
  intros Hin Hsp He. rewrite convert_run. cbv zeta.
  rewrite (bool_decide_eq_true_2 _ Hin), Hsp, isinstance_Exception, He.
  unfold printing, conversion_error_line. cbn [files trace map].
  by rewrite <- !app_assoc.
Qed.

Lemma convert_reports_spawn_error_witness :
  convert_with_pandoc env_vanishing (mkState fs_with_input []) =
    (Return false,
     mkState fs_with_input
       [ EvExists input_file; EvSpawn cmd;
         line "❌ Error during conversion: [Errno 2] No such file or directory: 'pandoc'" ]).
Proof.
  apply (convert_reports_spawn_error env_vanishing (mkState fs_with_input [])
           no_such_file); [by eexists|reflexivity..].
Defined.

(** X4: without the input file, [convert_with_pandoc] returns false after
    one existence check and one error line; it spawns nothing and leaves
    the files as they are, whatever the environment. *)
Theorem convert_without_input (env : Env) (s : State) :
  files s !! input_file = None →
  convert_with_pandoc env s =
    (Return false,
     mkState (files s)
       (trace s ++ [ EvExists input_file;
                     line "Error: Game_Architecture_Documentation.md not found!" ])).
Proof.
  intros Hnone. rewrite convert_run. cbv zeta. rewrite Hnone.
  rewrite bool_decide_eq_false_2 by (by intros [? ?]).
  unfold printing. cbn [files trace map]. by rewrite <- !app_assoc.
Qed.

Lemma convert_without_input_witness :
  convert_with_pandoc env_ok (mkState fs_empty []) =
    (Return false,
     mkState fs_empty
       [ EvExists input_file;
         line "Error: Game_Architecture_Documentation.md not found!" ]).
Proof.
  apply (convert_without_input env_ok (mkState fs_empty [])). reflexivity.
Defined.

(** ** The whole run, case by case *)

Lemma probe_tool_true_iff (env : Env) (fs : gmap string string) :
  probe_tool env fs = Return true ↔ tool_succeeded (probe_outcome env fs).
Proof.
  rewrite probe_tool_eq.
  destruct (probe_outcome env fs) as [e|rc out err]; cbn [tool_succeeded].
  - by destruct (isinstance e _).
  - case_bool_decide; split; congruence.
Qed.

Lemma probe_tool_raises_iff (env : Env) (fs : gmap string string) (e : exn) :
  probe_tool env fs = Raise e ↔
    probe_outcome env fs = SpawnError e
    ∧ isinstance e [CalledProcessError; FileNotFoundError] = false.
Proof.
  rewrite probe_tool_eq.
  destruct (probe_outcome env fs) as [e'|rc out err].
  - destruct (isinstance e' _) eqn:Hi; split.
    + discriminate.
    + intros [[= ->] Hf]. congruence.
    + intros [= ->]. done.
    + intros [[= ->] _]. done.
  - split; [discriminate | intros [[=] _]].
Qed.

(** X5: a run of the script ends with an exception exactly when the probe
    spawn raises something other than [CalledProcessError] and
    [FileNotFoundError], or when the tool answered the probe, the input
    file is there and the conversion spawn raises something that is not an
    [Exception]; these are the runs with a non-zero exit status. *)
Theorem run_raises_iff (env : Env) (fs : gmap string string) (e : exn) :
  ((run env fs).1 = Raise e ↔
     (probe_outcome env fs = SpawnError e
      ∧ isinstance e [CalledProcessError; FileNotFoundError] = false)
     ∨ (tool_succeeded (probe_outcome env fs)
        ∧ is_Some (files_after_probe env fs !! input_file)
        ∧ conversion_outcome env fs = SpawnError e
        ∧ issubclass (exn_type e) Exception = false))
  ∧ ((run env fs).1 = Raise e → (script env fs).1 ≠ 0).
Proof.
  split.
  - rewrite run_eq. cbv zeta.
    rewrite <- probe_tool_true_iff, <- probe_tool_raises_iff.
    destruct (probe_tool env fs) as [[|]|e0]; cbn [fst].
    + case_bool_decide as Hin.
      * destruct (conversion_outcome env fs) as [e'|rc out err].
        -- rewrite isinstance_Exception.
           destruct (issubclass (exn_type e') Exception) eqn:Hi; cbn [fst]; split.
           ++ discriminate.
           ++ intros [[=]|(_ & _ & [= ->] & Hf)]. congruence.
           ++ intros [= ->]. right. done.
           ++ intros [[=]|(_ & _ & [= ->] & _)]. done.
        -- split; [by case_bool_decide|].
           intros [[=]|(_ & _ & [=] & _)].
      * cbn [fst]. split; [discriminate|]. intros [[=]|(_ & ? & _)]. done.
    + split; [discriminate|]. intros [[=]|([=] & _)].
    + split; [intros [= ->]; by left|]. intros [[= ->]|([=] & _)]. done.
  - unfold script. destruct (run env fs) as [r s]. cbn [fst].
    intros ->. cbn [exit_status]. by case_bool_decide.
Qed.

Lemma run_raises_iff_witness :
  (run env_interrupted fs_with_input).1 = Raise interrupted
  ∧ (script env_interrupted fs_with_input).1 ≠ 0.
Proof.
  destruct (run_raises_iff env_interrupted fs_with_input interrupted)
    as [Hiff Hexit].
  assert (Hraise : (run env_interrupted fs_with_input).1 = Raise interrupted).
  { apply Hiff. right. split; [reflexivity|]. split; [by eexists|].
    split; reflexivity. }
  exact (conj Hraise (Hexit Hraise)).
Defined.

(** X6: an exception that escapes stops the script at the spawn that
    raised it: the trace is the banner and the probe, or the banner, the
    probe, the found message, the existence check and the conversion
    spawn.  Neither the manual instructions nor the tips are printed. *)
Theorem uncaught_exception_stops_at_spawn (env : Env) (fs : gmap string string)
    (e : exn) :
  (run env fs).1 = Raise e →
  events env fs = map line banner_lines ++ [EvSpawn probe_cmd]
  ∨ events env fs =
      map line banner_lines
      ++ [EvSpawn probe_cmd; line found_line; EvExists input_file; EvSpawn cmd].
Proof.
  unfold events. rewrite run_eq. cbv zeta.
  destruct (probe_tool env fs) as [[|]|e0]; cbn [fst snd].
  - case_bool_decide as Hin; [|discriminate].
    destruct (conversion_outcome env fs) as [e'|rc out err].
    + destruct (isinstance e' _); [discriminate|]. intros _. right.
      cbn [snd trace]. by rewrite <- !app_assoc.
    + by case_bool_decide.
  - discriminate.
  - intros _. by left.
Qed.

Lemma uncaught_exception_stops_at_spawn_witness :
  (run env_denied fs_with_input).1 = Raise permission_denied
  ∧ events env_denied fs_with_input =
      map line banner_lines ++ [EvSpawn probe_cmd].
Proof.
  assert (Hraise : (run env_denied fs_with_input).1 = Raise permission_denied)
    by reflexivity.
  split; [exact Hraise|].
  destruct (uncaught_exception_stops_at_spawn env_denied fs_with_input
              permission_denied Hraise) as [H|H]; [exact H|].
  discriminate H.
Defined.

(** ** What a run touches *)

Lemma actions_lines (ls : list string) : actions (map line ls) = [].
Proof. induction ls as [|l ls IH]; [done|]. exact IH. Qed.

Lemma actions_app (t1 t2 : list event) :
  actions (t1 ++ t2) = actions t1 ++ actions t2.
Proof. apply List.filter_app. Qed.

Lemma actions_printing (s : State) (ls : list string) :
  actions (trace (printing s ls)) = actions (trace s).
Proof.
  unfold printing; cbn [trace].
  by rewrite actions_app, actions_lines, app_nil_r.
Qed.

(** X7: the script itself creates, changes and deletes no file: when the
    spawned commands leave the files alone, a run leaves them as it found
    them (a failed conversion leaves no output file behind). *)
Theorem run_keeps_files (env : Env) (fs : gmap string string) :
  spawn_keeps_files env → files (run env fs).2 = fs.
Proof.
  intros Hkeep. rewrite run_eq. cbv zeta. unfold files_after_probe.
  rewrite !Hkeep.
  destruct (probe_tool env fs) as [[|]|e0]; [|reflexivity..].
  case_bool_decide; [|reflexivity].
  destruct (conversion_outcome env fs) as [e'|rc out err];
    [destruct (isinstance e' _)|case_bool_decide]; reflexivity.
Qed.

Lemma run_keeps_files_witness :
  spawn_keeps_files env_rejecting
  ∧ files (run env_rejecting fs_with_input).2 = fs_with_input
  ∧ files (run env_rejecting fs_with_input).2 !! output_file = None.
Proof.
  assert (Hkeep : spawn_keeps_files env_rejecting).
  { intros argv fs. unfold env_rejecting. cbn [spawn].
    by case_bool_decide. }
  pose proof (run_keeps_files env_rejecting fs_with_input Hkeep) as Hfiles.
  split; [exact Hkeep|]. split; [exact Hfiles|].
  rewrite Hfiles. reflexivity.
Defined.

Lemma elem_of_actions (ev : event) (t : list event) :
  ev ∈ t → is_write ev = false → ev ∈ actions t.
Proof.
  intros Hin Hw. apply list_elem_of_In, List.filter_In.
  split; [by apply list_elem_of_In|]. by rewrite Hw.
Qed.

(** X8: what a run does to the outside world, in order, is the probe
    spawn; then, only if the probe answered true, one existence check of
    the input file; then, only if the file is there, one conversion
    spawn.  Nothing else is ever spawned or looked up: in particular the
    output path is never checked before it is overwritten. *)
Theorem run_actions (env : Env) (fs : gmap string string) :
  actions (events env fs) =
    match probe_tool env fs with
    | Return true =>
        EvSpawn probe_cmd :: EvExists input_file ::
          (if bool_decide (is_Some (files_after_probe env fs !! input_file))
           then [EvSpawn cmd] else [])
    | _ => [EvSpawn probe_cmd]
    end
  ∧ (EvExists output_file ∉ events env fs).
Proof.
  assert (Hact : actions (events env fs) =
    match probe_tool env fs with
    | Return true =>
        EvSpawn probe_cmd :: EvExists input_file ::
          (if bool_decide (is_Some (files_after_probe env fs !! input_file))
           then [EvSpawn cmd] else [])
    | _ => [EvSpawn probe_cmd]
    end).
  { unfold events. rewrite run_eq. cbv zeta.
    destruct (probe_tool env fs) as [[|]|e0]; cbn [snd].
    - case_bool_decide.
      + destruct (conversion_outcome env fs) as [e'|rc out err];
          [destruct (isinstance e' _)|case_bool_decide];
          cbn [snd]; rewrite ?actions_printing; reflexivity.
      + cbn [snd]. rewrite actions_printing. reflexivity.
    - rewrite actions_printing. reflexivity.
    - reflexivity. }
  split; [exact Hact|].
  intros Hin. apply elem_of_actions in Hin; [|reflexivity].
  rewrite Hact in Hin.
  destruct (probe_tool env fs) as [[|]|e0];
    [case_bool_decide|..];
    repeat (apply elem_of_cons in Hin as [Hin|Hin]; [discriminate Hin|]);
    by apply elem_of_nil in Hin.
Qed.

(** X9: [manual_conversion_instructions] only prints: it returns without
    an exception, writes its twenty lines to the script's stdout, and
    spawns nothing, checks no path and leaves the files as they are. *)
Theorem manual_instructions_only_print (s : State) :
  let r := manual_conversion_instructions s in
  r.1 = Return tt
  ∧ files r.2 = files s
  ∧ actions (trace r.2) = actions (trace s)
  ∧ (∃ texts, length texts = 20%nat
       ∧ trace r.2 = trace s ++ map (EvWrite Script Stdout) texts).
Proof.
  cbv zeta. rewrite manual_run. cbn [fst snd].
  split; [done|]. split; [done|]. split; [apply actions_printing|].
  exists (map (λ l, l +:+ nl) manual_lines). split; [reflexivity|].
  unfold printing. cbn [trace]. by rewrite map_map.
Qed.

(** X10: a run that completes ends with the five lines of tips, whether
    the conversion succeeded or not. *)
Theorem completed_run_ends_with_tips (env : Env) (fs : gmap string string) :
  (run env fs).1 = Return tt →
  ∃ before, events env fs = before ++ map line tips_lines.
Proof.
  unfold events. rewrite run_eq. cbv zeta.
  destruct (probe_tool env fs) as [[|]|e0]; cbn [fst snd]; [| |discriminate].
  - case_bool_decide.
    + destruct (conversion_outcome env fs) as [e'|rc out err];
        [destruct (isinstance e' _); [|discriminate]|case_bool_decide];
        intros _; cbn [snd]; unfold printing; cbn [trace];
        eexists; rewrite ?app_comm_cons, !map_app, !app_assoc; reflexivity.
    + intros _. cbn [snd]. unfold printing; cbn [trace].
      eexists. rewrite ?app_comm_cons, !map_app, !app_assoc. reflexivity.
  - intros _. unfold printing; cbn [trace].
    eexists. rewrite ?app_comm_cons, !map_app, !app_assoc. reflexivity.
Qed.

Lemma completed_run_ends_with_tips_witness :
  (run env_missing fs_empty).1 = Return tt
  ∧ ∃ before, events env_missing fs_empty = before ++ map line tips_lines.
Proof.
  assert (Hdone : (run env_missing fs_empty).1 = Return tt) by reflexivity.
  exact (conj Hdone (completed_run_ends_with_tips env_missing fs_empty Hdone)).
Defined.

(** ** What the script reads of its children *)

Lemma blank_unread_text_spawn (env : Env) (argv : list string)
    (fs : gmap string string) :
  spawn (blank_unread_text env) argv fs =
    (match (spawn env argv fs).1 with
     | Exited rc out err =>
         Exited rc "" (if bool_decide (rc = 0) then "" else err)
     | SpawnError e => SpawnError e
     end, (spawn env argv fs).2).
Proof.
  unfold blank_unread_text. cbn [spawn]. by destruct (spawn env argv fs).
Qed.

Lemma blank_unread_text_probe_tool (env : Env) (fs : gmap string string) :
  probe_tool (blank_unread_text env) fs = probe_tool env fs.
Proof.
  rewrite !probe_tool_eq. unfold probe_outcome, blank_unread_text. cbn [spawn].
  by destruct (spawn env probe_cmd fs) as [[e|rc out err] fs'].
Qed.

Lemma blank_unread_text_files_after_probe (env : Env) (fs : gmap string string) :
  files_after_probe (blank_unread_text env) fs = files_after_probe env fs.
Proof.
  unfold files_after_probe, blank_unread_text. cbn [spawn].
  by destruct (spawn env probe_cmd fs) as [o fs'].
Qed.

(** X11: of a child whose captured output is handed back (the spawn
    returned a result), the script reads the exit status and, for a
    conversion that failed, the stderr text, and nothing else: blanking
    the stdout text of every such child, and the stderr text of those
    that exit with status 0, changes nothing in the run.  Output that
    [text=True] cannot decode is another matter: the spawn then raises
    and the run changes, see [undecodable_output_changes_run]. *)
Theorem run_ignores_unread_text (env : Env) (fs : gmap string string) :
  run (blank_unread_text env) fs = run env fs.
Proof.
  rewrite !run_eq. cbv zeta.
  rewrite blank_unread_text_probe_tool, !blank_unread_text_files_after_probe.
  destruct (probe_tool env fs) as [[|]|e0]; [|reflexivity..].
  case_bool_decide; [|reflexivity].
  unfold conversion_outcome. rewrite blank_unread_text_files_after_probe.
  rewrite blank_unread_text_spawn.
  destruct (spawn env cmd (files_after_probe env fs)) as [[e'|rc out err] fs'];
    cbn [fst snd].
  - reflexivity.
  - case_bool_decide; reflexivity.
Qed.

Lemma run_ignores_unread_text_witness :
  run (blank_unread_text env_warning) fs_with_input = run env_warning fs_with_input
  ∧ events env_warning fs_with_input = events env_ok fs_with_input.
Proof.
  split; [|reflexivity].
  exact (run_ignores_unread_text env_warning fs_with_input).
Defined.

(** With [text=True] the bytes a child writes do matter when they cannot
    be decoded: [subprocess.run] raises [UnicodeDecodeError], whatever the
    exit status, and the conversion is reported as failed. *)
Lemma undecodable_output_changes_run :
  (run env_undecodable fs_with_input).1 = Return tt
  ∧ line ("❌ Error during conversion: " +:+ exn_str cannot_decode)
      ∈ events env_undecodable fs_with_input
  ∧ (line confirmation_line ∉ events env_undecodable fs_with_input)
  ∧ run (blank_unread_text env_undecodable) fs_with_input
      = run env_undecodable fs_with_input.
Proof.
  split; [reflexivity|]. split; [|split].
  - refine (bool_decide_unpack _ _). vm_compute. exact I.
  - apply not_elem_of_by_decide. vm_compute. reflexivity.
  - reflexivity.
Qed.

(** ** Confirmation or manual instructions, never both *)

Ltac absurd_elem H :=
  solve [ revert H; apply not_elem_of_by_decide; vm_compute; reflexivity
        | discriminate H
        | injection H; cbn; discriminate ].

Ltac split_elem H :=
  repeat match type of H with
         | _ ∈ _ ++ _ => apply elem_of_app in H as [H|H]
         | _ ∈ _ :: _ => apply elem_of_cons in H as [H|H]
         end.

(** X12: the confirmation of a conversion is printed exactly when the
    tool answered the probe, the input file is there and the conversion
    exited with status 0.  A run that prints it does not print the manual
    instructions, and a completed run that does not print it does. *)
Theorem confirmation_iff_converted (env : Env) (fs : gmap string string) :
  (line confirmation_line ∈ events env fs ↔
     tool_succeeded (probe_outcome env fs)
     ∧ is_Some (files_after_probe env fs !! input_file)
     ∧ tool_succeeded (conversion_outcome env fs))
  ∧ (line confirmation_line ∈ events env fs →
     line manual_title ∉ events env fs)
  ∧ ((run env fs).1 = Return tt →
     line confirmation_line ∉ events env fs →
     line manual_title ∈ events env fs).
Proof.
  unfold events. rewrite run_eq. cbv zeta.
  rewrite <- probe_tool_true_iff.
  destruct (probe_tool env fs) as [[|]|e0]; cbn [fst snd].
  - case_bool_decide as Hin.
    + destruct (conversion_outcome env fs) as [e'|rc out err];
        cbn [tool_succeeded].
      * destruct (isinstance e' _); cbn [fst snd]; unfold printing;
          cbn [trace files]; (split; [|split]).
        -- split; [|by intros (_ & _ & [])]. intros H. exfalso.
           split_elem H; absurd_elem H.
        -- intros H. exfalso. split_elem H; absurd_elem H.
        -- intros _ _. set_solver.
        -- split; [|by intros (_ & _ & [])]. intros H. exfalso.
           split_elem H; absurd_elem H.
        -- intros H. exfalso. split_elem H; absurd_elem H.
        -- discriminate.
      * case_bool_decide as Hrc; cbn [fst snd]; unfold printing;
          cbn [trace files]; (split; [|split]).
        -- split; [done|]. intros _. set_solver.
        -- intros _ H. unfold converted_lines in H. cbn [map app] in H.
           split_elem H; absurd_elem H.
        -- intros _ Hno. exfalso. apply Hno. set_solver.
        -- split; [|by intros (_ & _ & ?)]. intros H. exfalso.
           split_elem H; absurd_elem H.
        -- intros H. exfalso. split_elem H; absurd_elem H.
        -- intros _ _. set_solver.
    + cbn [fst snd]; unfold printing; cbn [trace files]. split; [|split].
      * split; [|by intros (_ & ? & _)]. intros H. exfalso.
        split_elem H; absurd_elem H.
      * intros H. exfalso. split_elem H; absurd_elem H.
      * intros _ _. set_solver.
  - unfold printing; cbn [trace files]. split; [|split].
    + split; [|by intros ([=] & _)]. intros H. exfalso.
      split_elem H; absurd_elem H.
    + intros H. exfalso. split_elem H; absurd_elem H.
    + intros _ _. set_solver.
  - split; [|split].
    + split; [|by intros ([=] & _)]. intros H. exfalso.
      split_elem H; absurd_elem H.
    + intros H. exfalso. split_elem H; absurd_elem H.
    + discriminate.
Qed.

Lemma confirmation_iff_converted_witness :
  line confirmation_line ∈ events env_ok fs_with_input
  ∧ (line manual_title ∉ events env_ok fs_with_input).
Proof.
  destruct (confirmation_iff_converted env_ok fs_with_input)
    as (Hiff & Hexcl & _).
  assert (Hc : line confirmation_line ∈ events env_ok fs_with_input).
  { apply Hiff. split; [reflexivity|]. split; [by eexists|reflexivity]. }
  exact (conj Hc (Hexcl Hc)).
Defined.

(** ** Where the messages go *)

Lemma no_other_write_lines (ls : list string) :
  forallb no_other_write (map line ls) = true.
Proof. induction ls as [|l ls IH]; [done|]. exact IH. Qed.

Lemma no_other_write_printing (s : State) (ls : list string) :
  forallb no_other_write (trace s) = true →
  forallb no_other_write (trace (printing s ls)) = true.
Proof.
  intros Hs. unfold printing; cbn [trace].
  by rewrite forallb_app, Hs, no_other_write_lines.
Qed.

(** X13: in a run that completes, everything that reaches the terminal is
    written by the script to its stdout: the error and failure messages
    too, and nothing goes to stderr.  (A run that ends with an exception
    also gets the interpreter's traceback on stderr, which the trace
    leaves out; hence the restriction to completed runs.) *)
Theorem completed_run_writes_stdout_only (env : Env) (fs : gmap string string) :
  (run env fs).1 = Return tt →
  ∀ who fd text,
    EvWrite who fd text ∈ events env fs → who = Script ∧ fd = Stdout.
Proof.
  intros _.
  assert (Hall : forallb no_other_write (events env fs) = true).
  { unfold events. rewrite run_eq. cbv zeta.
    destruct (probe_tool env fs) as [[|]|e0]; cbn [snd].
    - case_bool_decide.
      + destruct (conversion_outcome env fs) as [e'|rc out err];
          [destruct (isinstance e' _)|case_bool_decide];
          cbn [snd]; try apply no_other_write_printing; reflexivity.
      + cbn [snd]. by apply no_other_write_printing.
    - by apply no_other_write_printing.
    - reflexivity. }
  intros who fd text Hin.
  apply list_elem_of_In in Hin.
  pose proof (proj1 (forallb_forall _ _) Hall _ Hin) as Hev.
  by destruct who, fd.
Qed.

Lemma completed_run_writes_stdout_only_witness :
  (run env_rejecting fs_with_input).1 = Return tt
  ∧ EvWrite Script Stdout
      ("❌ Conversion failed: pandoc: unrecognized option" +:+ nl)
      ∈ events env_rejecting fs_with_input
  ∧ (EvWrite Script Stderr
       ("❌ Conversion failed: pandoc: unrecognized option" +:+ nl)
       ∉ events env_rejecting fs_with_input).
Proof.
  assert (Hdone : (run env_rejecting fs_with_input).1 = Return tt)
    by reflexivity.
  split; [exact Hdone|]. split.
  - refine (bool_decide_unpack _ _). vm_compute. exact I.
  - intros Hin.
    destruct (completed_run_writes_stdout_only env_rejecting fs_with_input
                Hdone _ _ _ Hin) as [_ Hfd].
    discriminate Hfd.
Defined.

(** ** The exit status *)

Lemma script_status (env : Env) (fs : gmap string string) :
  (script env fs).1 = exit_status (run env fs).1.
Proof. unfold script. by destruct (run env fs). Qed.

(** A conversion that succeeded runs to the confirmation. *)
Lemma run_after_success (env : Env) (fs : gmap string string) :
  conversion_succeeded env fs →
  (run env fs).1 = Return tt ∧ line confirmation_line ∈ events env fs.
Proof.
  intros (Hp & Hin & Hc). unfold events. rewrite run_eq. cbv zeta.
  rewrite (probe_tool_succeeded _ _ Hp), (bool_decide_eq_true_2 _ Hin).
  destruct (conversion_outcome env fs) as [e|rc out err];
    cbn [tool_succeeded] in Hc; [done|]. subst rc.
  rewrite bool_decide_eq_true_2 by done. cbn [fst snd].
  split; [done|]. unfold printing; cbn [trace]. set_solver.
Qed.

(** A conversion that failed runs to the manual instructions, without a
    confirmation. *)
Lemma run_after_failure (env : Env) (fs : gmap string string) :
  conversion_failed env fs →
  (run env fs).1 = Return tt
  ∧ (line confirmation_line ∉ events env fs)
  ∧ emitted manual_lines (events env fs).
Proof.
  intros Hfail. unfold events. rewrite run_eq. cbv zeta.
  destruct Hfail as [Hp|[Hp|(Hp & Hfail)]].
  - rewrite probe_tool_missing_or_failed by auto. cbn [fst snd].
    split; [done|]. split; [|apply emitted_manual_after].
    unfold printing; cbn [trace files]. intros H.
    split_elem H; absurd_elem H.
  - rewrite probe_tool_missing_or_failed by auto. cbn [fst snd].
    split; [done|]. split; [|apply emitted_manual_after].
    unfold printing; cbn [trace files]. intros H.
    split_elem H; absurd_elem H.
  - rewrite (probe_tool_succeeded _ _ Hp).
    case_bool_decide as Hin.
    + destruct Hfail as [Hnone|Hfail];
        [rewrite Hnone in Hin; by destruct Hin|].
      destruct (conversion_outcome env fs) as [e|rc out err];
        cbn [tool_failed execution_error] in Hfail.
      * destruct Hfail as [[]|He]. rewrite isinstance_Exception, He.
        cbn [fst snd]. split; [done|]. split.
        -- unfold printing; cbn [trace files]. intros H.
           split_elem H; absurd_elem H.
        -- apply (emitted_printing _ [conversion_error_line e; failed_line]
                    manual_lines tips_lines).
      * destruct Hfail as [Hrc|[]].
        rewrite (bool_decide_eq_false_2 _ Hrc). cbn [fst snd].
        split; [done|]. split.
        -- unfold printing; cbn [trace files]. intros H.
           split_elem H; absurd_elem H.
        -- apply (emitted_printing _ [conversion_failed_line err; failed_line]
                    manual_lines tips_lines).
    + cbn [fst snd]. split; [done|]. split.
      * unfold printing; cbn [trace files]. intros H.
        split_elem H; absurd_elem H.
      * apply (emitted_printing _ [missing_line; failed_line]
                 manual_lines tips_lines).
Qed.

(** C8: the exit status tells the caller nothing about the conversion.
    A run in which the conversion succeeded and a run in which it failed
    altogether (tool missing, tool failing the probe, input file missing,
    conversion exiting non-zero, conversion spawn raising an error) both
    complete, the first with the confirmation and the second with the
    manual instructions and no confirmation, and both exit with status
    0. *)
Theorem exit_status_zero_on_success_and_failure (env : Env)
    (fs : gmap string string) :
  (conversion_succeeded env fs →
     (run env fs).1 = Return tt
     ∧ line confirmation_line ∈ events env fs
     ∧ (script env fs).1 = 0)
  ∧ (conversion_failed env fs →
       (run env fs).1 = Return tt
       ∧ (line confirmation_line ∉ events env fs)
       ∧ emitted manual_lines (events env fs)
       ∧ (script env fs).1 = 0).
Proof.
  split.
  - intros Hok. destruct (run_after_success env fs Hok) as [Hrun Hline].
    split; [exact Hrun|]. split; [exact Hline|].
    by rewrite script_status, Hrun.
  - intros Hko. destruct (run_after_failure env fs Hko) as (Hrun & Hno & Hman).
    split; [exact Hrun|]. split; [exact Hno|]. split; [exact Hman|].
    by rewrite script_status, Hrun.
Qed.

Lemma exit_status_zero_on_success_and_failure_witness :
  (conversion_succeeded env_ok fs_with_input
   ∧ (script env_ok fs_with_input).1 = 0)
  ∧ (conversion_failed env_missing fs_empty
     ∧ (script env_missing fs_empty).1 = 0)
  ∧ (conversion_failed env_rejecting fs_with_input
     ∧ (line confirmation_line ∉ events env_rejecting fs_with_input)
     ∧ (script env_rejecting fs_with_input).1 = 0).
Proof.
  assert (Hok : conversion_succeeded env_ok fs_with_input).
  { split; [reflexivity|]. split; [by eexists|reflexivity]. }
  assert (Hmissing : conversion_failed env_missing fs_empty)
    by (left; reflexivity).
  assert (Hrejected : conversion_failed env_rejecting fs_with_input).
  { right; right. split; [reflexivity|]. right; left. discriminate. }
  destruct (exit_status_zero_on_success_and_failure env_ok fs_with_input)
    as [Hsuccess _].
  destruct (exit_status_zero_on_success_and_failure env_missing fs_empty)
    as [_ Hfail1].
  destruct (exit_status_zero_on_success_and_failure env_rejecting fs_with_input)
    as [_ Hfail2].
  destruct (Hsuccess Hok) as (_ & _ & H0).
  destruct (Hfail1 Hmissing) as (_ & _ & _ & H1).
  destruct (Hfail2 Hrejected) as (_ & Hno & _ & H2).
  exact (conj (conj Hok H0)
           (conj (conj Hmissing H1) (conj Hrejected (conj Hno H2)))).
Defined.
